(** * panda_math: the packaging manifest [setup.py]

    The repository consists of one module, [setup.py].  Evaluating it
    imports [setup] and [find_packages] from setuptools, evaluates the
    keyword arguments of the [setup(...)] call from left to right (two of
    them touch the working directory: [find_packages()] and
    [open("README.md", encoding="utf-8").read()]) and finally calls
    [setup].

    The module is embedded as a computation in a small reader/writer/error
    monad: it reads the environment (the module search of the interpreter,
    the working directory), logs the steps its own statements take, and
    either raises or returns.  What the functions it calls do inside (the
    directory scan of [find_packages], the configuration files [setup]
    reads) belongs to the environment. *)

From Stdlib Require Import String Ascii List Bool Arith NArith Lia.
From Stdlib Require Import Strings.Byte.
Import ListNotations.
Local Open Scope string_scope.
Local Open Scope list_scope.

Set Implicit Arguments.

(* ===================================================================== *)
(** ** Python values and exceptions *)
(* ===================================================================== *)

(** A Python [str] is kept as the UTF-8 encoding of its code points; every
    literal of [setup.py] is ASCII. *)
Definition str := string.

(** The values that occur as keyword arguments of [setup]. *)
Inductive value : Type :=
| VStr  (s : str)
| VList (l : list str).

(** The keyword arguments of a call, in the order they are written. *)
Definition kwargs := list (string * value).

Fixpoint get (k : string) (kw : kwargs) : option value :=
  match kw with
  | [] => None
  | (k', v) :: rest => if String.eqb k k' then Some v else get k rest
  end.

Definition keys (kw : kwargs) : list string := map fst kw.

(** The exceptions the evaluation of the module can end with. *)
Inductive exn : Type :=
| ModuleNotFoundError (name : string)   (* line 1: no module of that name *)
| ImportError         (name : string)   (* line 1: the module lacks the name *)
| FileNotFoundError   (path : string)   (* builtin open *)
| IsADirectoryError   (path : string)   (* builtin open *)
| PermissionError     (path : string)   (* builtin open *)
| OSError             (errno : string) (path : string)  (* builtin open, any other cause *)
| UnicodeDecodeError  (codec : string)  (* TextIOWrapper.read *)
| SetuptoolsError     (msg : string).   (* raised by the code of the imported module *)


(* ===================================================================== *)
(** ** The working directory *)
(* ===================================================================== *)

(** A directory entry is a regular file (with the read permission of the
    process and its bytes), a directory with its entries in listing order,
    a symbolic link with what it leads to ([None] when nothing is there),
    or something else that cannot be opened, with the error number that
    opening it gives (a link that leads back to itself, a socket). *)
#[warnings="-register-all"]
Inductive node : Type :=
| File    (readable : bool) (data : list byte)
| Dir     (entries : list (string * node))
| Symlink (target : option node)
| Other   (errno : string).

Definition directory := list (string * node).

Fixpoint lookup (name : string) (d : directory) : option node :=
  match d with
  | [] => None
  | (n, x) :: rest => if String.eqb name n then Some x else lookup name rest
  end.

(** [os.path.isfile] and [os.path.isdir] follow symbolic links. *)
Fixpoint is_regular (n : node) : bool :=
  match n with
  | File _ _ => true
  | Dir _ => false
  | Symlink None => false
  | Symlink (Some t) => is_regular t
  | Other _ => false
  end.

Fixpoint as_dir (n : node) : option directory :=
  match n with
  | File _ _ => None
  | Dir es => Some es
  | Symlink None => None
  | Symlink (Some t) => as_dir t
  | Other _ => None
  end.

Definition isfile (name : string) (d : directory) : bool :=
  match lookup name d with Some n => is_regular n | None => false end.

(** What opening an entry for reading gives: its bytes, or the error of
    the operating system. *)
Fixpoint open_node (path : string) (n : node) : exn + list byte :=
  match n with
  | File true bs => inr bs
  | File false _ => inl (PermissionError path)
  | Dir _ => inl (IsADirectoryError path)
  | Symlink None => inl (FileNotFoundError path)
  | Symlink (Some t) => open_node path t
  | Other errno => inl (OSError errno path)
  end.

(* ===================================================================== *)
(** ** Text decoding: the utf-8 codec and universal newlines *)
(* ===================================================================== *)

Definition between (lo hi : N) (b : byte) : bool :=
  (lo <=? Byte.to_N b)%N && (Byte.to_N b <=? hi)%N.

Definition continuation (b : byte) : bool := between 128 191 b.

(** Well-formed UTF-8 byte sequences (strict: no overlong forms, no
    surrogates, nothing above U+10FFFF), as CPython's decoder accepts
    them with [errors="strict"]. *)
Fixpoint utf8_valid (bs : list byte) : bool :=
  match bs with
  | [] => true
  | b0 :: r0 =>
    if between 0 127 b0 then utf8_valid r0 else
    match r0 with
    | [] => false
    | b1 :: r1 =>
      if between 194 223 b0 then continuation b1 && utf8_valid r1 else
      match r1 with
      | [] => false
      | b2 :: r2 =>
        if between 224 239 b0 then
          (if between 224 224 b0 then between 160 191 b1
           else if between 237 237 b0 then between 128 159 b1
           else continuation b1)
          && continuation b2 && utf8_valid r2
        else
        match r2 with
        | [] => false
        | b3 :: r3 =>
          if between 240 244 b0 then
            (if between 240 240 b0 then between 144 191 b1
             else if between 244 244 b0 then between 128 143 b1
             else continuation b1)
            && continuation b2 && continuation b3 && utf8_valid r3
          else false
        end
      end
    end
  end.

(** [bytes.decode("utf-8")] *)
Definition decode_utf8 (bs : list byte) : option str :=
  if utf8_valid bs then Some (string_of_list_byte bs) else None.

Definition CR : ascii := "013"%char.
Definition LF : ascii := "010"%char.

(** Text mode with [newline=None]: CR LF and a lone CR are read as LF. *)
Fixpoint universal_newlines (s : str) : str :=
  match s with
  | EmptyString => EmptyString
  | String c rest =>
    if Ascii.eqb c CR then
      match rest with
      | String c' rest' =>
        if Ascii.eqb c' LF then String LF (universal_newlines rest')
        else String LF (universal_newlines rest)
      | EmptyString => String LF EmptyString
      end
    else String c (universal_newlines rest)
  end.

(** What [open(path, encoding="utf-8").read()] returns for a file with
    these bytes, when it returns. *)
Definition text_of (bs : list byte) : option str :=
  option_map universal_newlines (decode_utf8 bs).

(* ===================================================================== *)
(** ** The packaging tool and the environment *)
(* ===================================================================== *)

(** What a module named setuptools gives to [setup.py]: [find_packages],
    called with no argument, so that it scans the working directory, and
    [setup].  Both see the working directory ([setup] reads [setup.cfg]
    there) and both may raise. *)
Record Setuptools : Type := {
  st_find_packages : directory -> string + list str;  (* [inl msg]: it raised *)
  st_setup         : directory -> kwargs -> option string  (* [Some msg]: it raised *)
}.

(** What [from setuptools import setup, find_packages] comes to. *)
Inductive import_result : Type :=
| Loaded     (st : Setuptools)
| NoModule                       (* no module named setuptools on the path *)
| NoName     (name : string)     (* the module found lacks this name *)
| BodyRaised (msg : string).     (* the module found raised while it was run *)

(** The module search of the interpreter starts in the directory of the
    script, so what it finds may depend on the working directory: a
    [setuptools.py] beside [setup.py] hides the installed distribution. *)
Record Env : Type := {
  import_system : directory -> import_result;
  cwd           : directory
}.

Definition imported (env : Env) : import_result := import_system env (cwd env).

(** The steps of the statements of [setup.py]. *)
Inductive event : Type :=
| EImport       (module : string) (names : list string)
| EFindPackages (result : list str)
| EFindPackagesRaised (msg : string)
| EOpen         (path encoding : string)
| ERead         (path : string)
| ESetup        (attrs : kwargs).

(** Reader (the environment), writer (the log) and error. *)
Definition M (A : Type) : Type := Env -> list event * (exn + A).

Definition ret {A} (a : A) : M A := fun _ => ([], inr a).

Definition bind {A B} (m : M A) (f : A -> M B) : M B :=
  fun env =>
    match m env with
    | (t1, inl e) => (t1, inl e)
    | (t1, inr a) => let (t2, r) := f a env in (t1 ++ t2, r)
    end.

Definition raise {A} (e : exn) : M A := fun _ => ([], inl e).
Definition log (ev : event) : M unit := fun _ => ([ev], inr tt).
Definition ask : M Env := fun env => ([], inr env).

Declare Scope py_scope.
Delimit Scope py_scope with py.
Notation "x <- m ;; k" := (bind m (fun x => k))
  (at level 61, m at next level, right associativity) : py_scope.
Notation "m ;; k" := (bind m (fun _ => k))
  (at level 61, right associativity) : py_scope.
Local Open Scope py_scope.

(** [from setuptools import setup, find_packages] *)
Definition import_setuptools : M Setuptools :=
  log (EImport "setuptools" ["setup"; "find_packages"]) ;;
  env <- ask ;;
  match imported env with
  | Loaded st => ret st
  | NoModule => raise (ModuleNotFoundError "setuptools")
  | NoName name => raise (ImportError name)
  | BodyRaised msg => raise (SetuptoolsError msg)
  end.

(** [find_packages()] *)
Definition find_packages (st : Setuptools) : M (list str) :=
  env <- ask ;;
  match st_find_packages st (cwd env) with
  | inr pkgs => log (EFindPackages pkgs) ;; ret pkgs
  | inl msg => log (EFindPackagesRaised msg) ;; raise (SetuptoolsError msg)
  end.

(** A text file object: the path it was opened from and the bytes behind it. *)
Record TextIO : Type := { io_name : string; io_bytes : list byte }.

(** [open(path, encoding="utf-8")], mode ["r"], relative to the working
    directory. *)
Definition open (path : string) : M TextIO :=
  log (EOpen path "utf-8") ;;
  env <- ask ;;
  match lookup path (cwd env) with
  | None => raise (FileNotFoundError path)
  | Some n =>
    match open_node path n with
    | inl e => raise e
    | inr bs => ret {| io_name := path; io_bytes := bs |}
    end
  end.

(** [f.read()] *)
Definition read (f : TextIO) : M str :=
  log (ERead (io_name f)) ;;
  match text_of (io_bytes f) with
  | Some s => ret s
  | None => raise (UnicodeDecodeError "utf-8")
  end.

(** The call [setup(name=..., ..., python_requires=...)]. *)
Definition setup (st : Setuptools) (attrs : kwargs) : M unit :=
  log (ESetup attrs) ;;
  env <- ask ;;
  match st_setup st (cwd env) attrs with
  | None => ret tt
  | Some msg => raise (SetuptoolsError msg)
  end.

(* ===================================================================== *)
(** ** The module [setup.py] *)
(* ===================================================================== *)

(** The keyword arguments of the call on lines 3 to 20, given the values of
    the two arguments that are computed. *)
Definition setup_attrs (packages : list str) (long_description : str) : kwargs :=
  [ ("name", VStr "panda_math");
    ("version", VStr "0.1.1");
    ("packages", VList packages);
    ("install_requires", VList ["numpy"]);
    ("author", VStr "Colin Politi");
    ("author_email", VStr "urboycolinthepanda@gmail.com");
    ("description", VStr "A Vector, Matrix, and transformation utilities for 2D, 3D graphics, and game development.");
    ("long_description", VStr long_description);
    ("long_description_content_type", VStr "text/markdown");
    ("url", VStr "https://github.com/ColinThePanda/panda_math");
    ("classifiers", VList [ "Programming Language :: Python :: 3";
                            "License :: OSI Approved :: MIT License";
                            "Operating System :: OS Independent" ]);
    ("python_requires", VStr ">=3.6") ].

(** The module body: the import, then the call, whose arguments are
    evaluated in the order they are written. *)
Definition setup_py : M unit :=
  st <- import_setuptools ;;
  packages <- find_packages st ;;
  f <- open "README.md" ;;
  long_description <- read f ;;
  setup st (setup_attrs packages long_description).


(** Running the module in an environment. *)
Definition trace (env : Env) : list event := fst (setup_py env).
Definition outcome (env : Env) : exn + unit := snd (setup_py env).

(** The arguments [setup] was called with, when it was called. *)
Fixpoint setup_call_in (t : list event) : option kwargs :=
  match t with
  | [] => None
  | ESetup attrs :: _ => Some attrs
  | _ :: rest => setup_call_in rest
  end.

Definition setup_call (env : Env) : option kwargs := setup_call_in (trace env).

(* ===================================================================== *)
(** ** A reference [find_packages] and the contract every one obeys *)
(* ===================================================================== *)

Module Finder.

Definition INIT : string := "__init__.py".

Fixpoint contains_dot (s : string) : bool :=
  match s with
  | EmptyString => false
  | String c rest => Ascii.eqb c "."%char || contains_dot rest
  end.

(** [PackageFinder._looks_like_package] *)
Definition looks_like_package (n : node) : bool :=
  match as_dir n with
  | Some es => isfile INIT es
  | None => false
  end.

(** The entries the walk enters: directories without a dot in their name
    that look like packages. *)
Definition is_package_entry (e : string * node) : bool :=
  negb (contains_dot (fst e)) && looks_like_package (snd e).

Fixpoint ends_with (suffix s : string) : bool :=
  String.eqb suffix s
  || match s with
     | EmptyString => false
     | String _ rest => ends_with suffix rest
     end.

(** [PackageFinder.ALWAYS_EXCLUDE]: the patterns [ez_setup] and
    [*__pycache__], matched against the dotted name. *)
Definition excluded (p : str) : bool :=
  String.eqb p "ez_setup" || ends_with "__pycache__" p.

(** The walk of [PackageFinder._find_iter]: the sub-directories of a
    directory that look like packages are reported, unless excluded, then
    each of them is searched in turn; directories that are skipped are not
    entered.  Links are followed. *)
Fixpoint find_iter (prefix : string) (n : node) : list str :=
  match n with
  | File _ _ => []
  | Other _ => []
  | Symlink None => []
  | Symlink (Some t) => find_iter prefix t
  | Dir es =>
    flat_map
      (fun e => if is_package_entry e && negb (excluded (prefix ++ fst e)%string)
                then [(prefix ++ fst e)%string] else [])
      es
    ++
    flat_map
      (fun e => if is_package_entry e
                then find_iter (prefix ++ fst e ++ ".")%string (snd e) else [])
      es
  end.

Definition find (d : directory) : list str := find_iter "" (Dir d).

(** A setuptools whose [find_packages] is the walk and whose [setup]
    accepts every call. *)
Definition reference : Setuptools :=
  {| st_find_packages := fun d => inr (find d);
     st_setup := fun _ _ => None |}.

(** Dotted package names back to paths. *)
Fixpoint split_dots (acc : string) (s : string) : list string :=
  match s with
  | EmptyString => [acc]
  | String c rest =>
    if Ascii.eqb c "."%char then acc :: split_dots "" rest
    else split_dots (acc ++ String c "")%string rest
  end.

(** The directory a path of names leads to, links followed. *)
Fixpoint resolve (path : list string) (d : directory) : option directory :=
  match path with
  | [] => Some d
  | name :: rest =>
    match lookup name d with
    | Some n =>
      match as_dir n with
      | Some es => resolve rest es
      | None => None
      end
    | None => None
    end
  end.

(** [is_package d p]: the dotted name [p] leads, from [d], to a directory
    that holds a regular file [__init__.py]. *)
Definition is_package (d : directory) (p : str) : bool :=
  match resolve (split_dots "" p) d with
  | Some es => isfile INIT es
  | None => false
  end.

(** The contract of [find_packages] on a directory: it returns, and it
    reports packages only. *)
Definition sound_on (st : Setuptools) (d : directory) : bool :=
  match st_find_packages st d with
  | inr pkgs => forallb (is_package d) pkgs
  | inl _ => false
  end.


(** A directory lists every name once, and so do the directories below. *)
Fixpoint distinct (l : list string) : bool :=
  match l with
  | [] => true
  | x :: rest => negb (existsb (String.eqb x) rest) && distinct rest
  end.

Fixpoint unique_names (n : node) : bool :=
  match n with
  | File _ _ => true
  | Other _ => true
  | Symlink None => true
  | Symlink (Some t) => unique_names t
  | Dir es => distinct (map fst es) && forallb (fun e => unique_names (snd e)) es
  end.

End Finder.

(* ===================================================================== *)
(** ** Version specifiers ([python_requires]) *)
(* ===================================================================== *)

Module Specifier.

Inductive operator : Type := Ge | Le | Eq | Ne | Gt | Lt.

Definition digit (c : ascii) : option nat :=
  let n := nat_of_ascii c in
  if Nat.leb 48 n && Nat.leb n 57 then Some (n - 48) else None.

(** A release segment: decimal numbers separated by dots. [cur] is the
    number being read, [None] when no digit of it has been seen. *)
Fixpoint parse_release (cur : option nat) (s : string) : option (list nat) :=
  match s with
  | EmptyString => option_map (fun n => [n]) cur
  | String c rest =>
    if Ascii.eqb c "."%char then
      match cur, parse_release None rest with
      | Some n, Some ns => Some (n :: ns)
      | _, _ => None
      end
    else
      match digit c with
      | Some k => parse_release (Some (10 * match cur with Some n => n | None => 0 end + k)) rest
      | None => None
      end
  end.

Definition parse_operator (s : string) : option (operator * string) :=
  match s with
  | String a (String b rest) =>
    if Ascii.eqb b "="%char then
      if Ascii.eqb a ">"%char then Some (Ge, rest)
      else if Ascii.eqb a "<"%char then Some (Le, rest)
      else if Ascii.eqb a "="%char then Some (Eq, rest)
      else if Ascii.eqb a "!"%char then Some (Ne, rest)
      else None
    else if Ascii.eqb a ">"%char then Some (Gt, String b rest)
    else if Ascii.eqb a "<"%char then Some (Lt, String b rest)
    else None
  | _ => None
  end.

Definition parse (s : string) : option (operator * list nat) :=
  match parse_operator s with
  | Some (o, rest) => option_map (pair o) (parse_release None rest)
  | None => None
  end.

(** Releases compare component by component, the shorter one padded
    with zeros. *)
Fixpoint compare_release (a b : list nat) {struct a} : comparison :=
  match a with
  | [] => if forallb (Nat.eqb 0) b then Datatypes.Eq else Datatypes.Lt
  | x :: a' =>
    match b with
    | [] =>
      match Nat.compare x 0 with Datatypes.Eq => compare_release a' [] | c => c end
    | y :: b' =>
      match Nat.compare x y with Datatypes.Eq => compare_release a' b' | c => c end
    end
  end.

Definition holds (o : operator) (c : comparison) : bool :=
  match o, c with
  | Ge, Datatypes.Lt => false | Ge, _ => true
  | Le, Datatypes.Gt => false | Le, _ => true
  | Eq, Datatypes.Eq => true  | Eq, _ => false
  | Ne, Datatypes.Eq => false | Ne, _ => true
  | Gt, Datatypes.Gt => true  | Gt, _ => false
  | Lt, Datatypes.Lt => true  | Lt, _ => false
  end.

(** The final release [major.minor.micro] of the interpreter. *)
Record PythonVersion : Type := { major : nat; minor : nat; micro : nat }.

Definition release (v : PythonVersion) : list nat := [major v; minor v; micro v].

(** Does the interpreter version satisfy the requirement string? *)
Definition satisfied_by (requires : str) (v : PythonVersion) : bool :=
  match parse requires with
  | Some (o, r) => holds o (compare_release (release v) r)
  | None => false
  end.

End Specifier.

(* ===================================================================== *)
(** ** The text of [setup.py] and its tokens *)
(* ===================================================================== *)

Module Source.

Definition dq : string := String "034"%char EmptyString.

(** [q s] is the string literal [s] as it is written in the file. *)
Definition q (s : string) : string := (dq ++ s ++ dq)%string.

Definition lines : list string :=
  [ "from setuptools import setup, find_packages";
    "";
    "setup(";
    "    name=" ++ q "panda_math" ++ ",  # Must be unique on PyPI";
    "    version=" ++ q "0.1.1" ++ ",";
    "    packages=find_packages(),";
    "    install_requires=[" ++ q "numpy" ++ "],";
    "    author=" ++ q "Colin Politi" ++ ",";
    "    author_email=" ++ q "urboycolinthepanda@gmail.com" ++ ",";
    "    description=" ++ q "A Vector, Matrix, and transformation utilities for 2D, 3D graphics, and game development." ++ ",";
    "    long_description=open(" ++ q "README.md" ++ ", encoding=" ++ q "utf-8" ++ ").read(),";
    "    long_description_content_type=" ++ q "text/markdown" ++ ",";
    "    url=" ++ q "https://github.com/ColinThePanda/panda_math" ++ ",";
    "    classifiers=[";
    "        " ++ q "Programming Language :: Python :: 3" ++ ",";
    "        " ++ q "License :: OSI Approved :: MIT License" ++ ",";
    "        " ++ q "Operating System :: OS Independent" ++ ",";
    "    ],";
    "    python_requires=" ++ q ">=3.6" ++ ",";
    ")" ]%string.

(** The file: its lines joined by line feeds, the last one unterminated. *)
Definition text : string := String.concat (String LF EmptyString) lines.

(** [str.splitlines] for line feeds. *)
Fixpoint splitlines (cur : string) (s : string) : list string :=
  match s with
  | EmptyString => match cur with EmptyString => [] | _ => [cur] end
  | String c rest =>
    if Ascii.eqb c LF then cur :: splitlines "" rest
    else splitlines (cur ++ String c "")%string rest
  end.

Inductive token : Type :=
| NAME (s : string)
| STRING (s : string)
| OP (c : ascii)
| NEWLINE                (* the end of a logical line *)
| ERRORTOKEN.

Inductive mode : Type :=
| Code
| InString (quote : ascii)
| Escaped (quote : ascii)
| Comment.

Definition is_name_char (c : ascii) : bool :=
  let n := nat_of_ascii c in
  (Nat.leb 48 n && Nat.leb n 57) || (Nat.leb 65 n && Nat.leb n 90)
  || (Nat.leb 97 n && Nat.leb n 122) || Nat.eqb n 95.

Definition is_quote (c : ascii) : bool :=
  Ascii.eqb c "034"%char || Ascii.eqb c "'"%char.

Definition is_space (c : ascii) : bool :=
  Ascii.eqb c " "%char || Ascii.eqb c "009"%char || Ascii.eqb c CR.

Definition opens (c : ascii) : bool :=
  Ascii.eqb c "("%char || Ascii.eqb c "["%char || Ascii.eqb c "{"%char.

Definition closes (c : ascii) : bool :=
  Ascii.eqb c ")"%char || Ascii.eqb c "]"%char || Ascii.eqb c "}"%char.

Definition name_token (pending : string) : list token :=
  match pending with EmptyString => [] | _ => [NAME pending] end.

Definition end_of_line (depth : nat) : list token :=
  match depth with 0 => [NEWLINE] | S _ => [] end.

(** The scanner.  [depth] counts the open brackets, inside which a line
    break does not end the logical line; [pending] is the name or the
    string literal being read. *)
Fixpoint scan (m : mode) (depth : nat) (pending : string) (s : string)
  : list token :=
  match s with
  | EmptyString =>
    match m with
    | Code | Comment =>
      name_token pending ++ match depth with 0 => [NEWLINE] | S _ => [ERRORTOKEN] end
    | InString _ | Escaped _ => [ERRORTOKEN]
    end
  | String c rest =>
    match m with
    | Comment =>
      if Ascii.eqb c LF then end_of_line depth ++ scan Code depth "" rest
      else scan Comment depth "" rest
    | InString quote =>
      if Ascii.eqb c quote then STRING pending :: scan Code depth "" rest
      else if Ascii.eqb c "\"%char then scan (Escaped quote) depth pending rest
      else if Ascii.eqb c LF then ERRORTOKEN :: scan Code depth "" rest
      else scan (InString quote) depth (pending ++ String c "")%string rest
    | Escaped quote =>
      scan (InString quote) depth (pending ++ String c "")%string rest
    | Code =>
      if is_name_char c then scan Code depth (pending ++ String c "")%string rest
      else
        name_token pending ++
        (if is_quote c then scan (InString c) depth "" rest
         else if Ascii.eqb c "#"%char then scan Comment depth "" rest
         else if Ascii.eqb c LF then end_of_line depth ++ scan Code depth "" rest
         else if is_space c then scan Code depth "" rest
         else if opens c then OP c :: scan Code (S depth) "" rest
         else if closes c then
           match depth with
           | 0 => ERRORTOKEN :: scan Code 0 "" rest
           | S d => OP c :: scan Code d "" rest
           end
         else OP c :: scan Code depth "" rest)
    end
  end.

Definition tokens : list token := scan Code 0 "" text.

Definition is_error (t : token) : bool :=
  match t with ERRORTOKEN => true | _ => false end.

(** Brackets are balanced and every string literal is closed. *)
Definition well_bracketed (ts : list token) : bool := negb (existsb is_error ts).

(** The logical lines: the tokens between two [NEWLINE]s, blank lines
    left out. *)
Fixpoint logical_lines (cur : list token) (ts : list token) : list (list token) :=
  match ts with
  | [] => match cur with [] => [] | _ => [cur] end
  | NEWLINE :: rest =>
    match cur with
    | [] => logical_lines [] rest
    | _ => cur :: logical_lines [] rest
    end
  | t :: rest => logical_lines (cur ++ [t]) rest
  end.

Definition names (ts : list token) : list string :=
  flat_map (fun t => match t with NAME s => [s] | _ => [] end) ts.

Definition strings (ts : list token) : list string :=
  flat_map (fun t => match t with STRING s => [s] | _ => [] end) ts.

(** The kinds of statement a module can have at its top level. *)
Inductive statement : Type :=
| ImportFrom (module : string) (imported : list string)
| FunctionDef
| ClassDef
| Call (callee : string)
| OtherStatement.

Definition ends_with_close (ts : list token) : bool :=
  match last ts NEWLINE with
  | OP c => Ascii.eqb c ")"%char
  | _ => false
  end.

Definition statement_of (ts : list token) : statement :=
  match ts with
  | NAME kw :: rest =>
    if String.eqb kw "def" || String.eqb kw "async" then FunctionDef
    else if String.eqb kw "class" then ClassDef
    else if String.eqb kw "from" then
      match rest with
      | NAME m :: NAME imp :: imported =>
        if String.eqb imp "import" then ImportFrom m (names imported)
        else OtherStatement
      | _ => OtherStatement
      end
    else
      match rest with
      | OP c :: _ =>
        if Ascii.eqb c "("%char && ends_with_close rest then Call kw
        else OtherStatement
      | _ => OtherStatement
      end
  | OP c :: _ => if Ascii.eqb c "@"%char then FunctionDef else OtherStatement
  | _ => OtherStatement
  end.

Definition statements : list statement :=
  map statement_of (logical_lines [] tokens).

(** The keywords [k] of the arguments [k=...] written directly inside the
    outermost brackets of a call. *)
Fixpoint keywords (depth : nat) (ts : list token) : list string :=
  match ts with
  | [] => []
  | NAME k :: rest =>
    match rest with
    | OP c :: _ =>
      if Nat.eqb depth 1 && Ascii.eqb c "="%char then k :: keywords depth rest
      else keywords depth rest
    | _ => keywords depth rest
    end
  | OP c :: rest =>
    if opens c then keywords (S depth) rest
    else if closes c then keywords (Nat.pred depth) rest
    else keywords depth rest
  | _ :: rest => keywords depth rest
  end.

(** The tokens of the argument written for keyword [k]: what follows
    [k=] up to the comma, or the closing bracket, that ends it.  [found]
    says whether [k=] has been passed. *)
Fixpoint argument (k : string) (found : bool) (depth : nat) (ts : list token)
  : list token :=
  match ts with
  | [] => []
  | t :: rest =>
    if found then
      match t with
      | OP c =>
        if Nat.eqb depth 1 && (Ascii.eqb c ","%char || closes c) then []
        else if opens c then t :: argument k true (S depth) rest
        else if closes c then t :: argument k true (Nat.pred depth) rest
        else t :: argument k true depth rest
      | _ => t :: argument k true depth rest
      end
    else
      match t, rest with
      | NAME n, OP c :: rest' =>
        if Nat.eqb depth 1 && Ascii.eqb c "="%char && String.eqb n k
        then argument k true depth rest'
        else argument k false depth rest
      | OP c, _ =>
        if opens c then argument k false (S depth) rest
        else if closes c then argument k false (Nat.pred depth) rest
        else argument k false depth rest
      | _, _ => argument k false depth rest
      end
  end.

(** The items of a list display, after its opening bracket: string
    literals, each followed by a comma or by the closing bracket. *)
Fixpoint list_items (ts : list token) : option (list str) :=
  match ts with
  | [OP c] => if Ascii.eqb c "]"%char then Some [] else None
  | STRING s :: OP c :: rest =>
    if Ascii.eqb c ","%char then option_map (cons s) (list_items rest)
    else if Ascii.eqb c "]"%char then
      match rest with [] => Some [s] | _ => None end
    else None
  | _ => None
  end.

(** The value of an argument that is written as a literal: a string, or
    a list of strings. *)
Definition literal (ts : list token) : option value :=
  match ts with
  | [STRING s] => Some (VStr s)
  | OP c :: rest =>
    if Ascii.eqb c "["%char then option_map VList (list_items rest) else None
  | _ => None
  end.

(** The logical line of the call to [setup]. *)
Definition call_tokens : list token := nth 1 (logical_lines [] tokens) [].

(** The literal written for keyword [k] in the call, when there is one. *)
Definition written (k : string) : option value :=
  literal (argument k false 0 call_tokens).

(** Words that introduce code of the file's own. *)
Definition defining_words : list string := ["def"; "class"; "lambda"].

Definition defines_code (ts : list token) : bool :=
  existsb (fun n => existsb (String.eqb n) defining_words) (names ts).

(** *** The grammar of the file

    A parser for the part of Python's grammar the file is written in:
    [from ... import ...] statements and expression statements made of
    names, string literals, list displays, attribute references and calls
    with positional and keyword arguments.  It accepts Python only: a text
    it accepts is a module that Python parses. *)

(** The reserved words, and [__debug__], which may not be bound. *)
Definition python_keywords : list string :=
  [ "False"; "None"; "True"; "and"; "as"; "assert"; "async"; "await";
    "break"; "class"; "continue"; "def"; "del"; "elif"; "else"; "except";
    "finally"; "for"; "from"; "global"; "if"; "import"; "in"; "is";
    "lambda"; "nonlocal"; "not"; "or"; "pass"; "raise"; "return"; "try";
    "while"; "with"; "yield"; "__debug__" ].

Definition is_digit (c : ascii) : bool :=
  let n := nat_of_ascii c in Nat.leb 48 n && Nat.leb n 57.

(** A name token that is an identifier: it does not start with a digit and
    is not a reserved word. *)
Definition is_identifier (s : string) : bool :=
  match s with
  | EmptyString => false
  | String c _ => negb (is_digit c) && negb (existsb (String.eqb s) python_keywords)
  end.

#[warnings="-register-all"]
Inductive expr : Type :=
| Name        (id : string)
| Str         (parts : list string)
| ListDisplay (items : list expr)
| Attribute   (e : expr) (attr : string)
| CallExpr    (func : expr) (args : list (option string * expr)).

Inductive stmt : Type :=
| FromImport (module : list string) (imported : list string)
| ExprStmt   (e : expr).

(** Adjacent string literals are one atom. *)
Fixpoint take_strings (ts : list token) : list string * list token :=
  match ts with
  | STRING s :: rest => let (parts, rest') := take_strings rest in (s :: parts, rest')
  | _ => ([], ts)
  end.

Definition is_op (c : ascii) (t : token) : bool :=
  match t with OP c' => Ascii.eqb c c' | _ => false end.

(** [parse_expr]: an atom and its trailers.  [parse_items] reads the items
    of a list display after its opening bracket, [parse_args] the
    arguments of a call after its opening bracket; [seen] holds the
    keywords read so far: a keyword may not be repeated, and a positional
    argument may not follow a keyword argument. *)
Fixpoint parse_expr (fuel : nat) (ts : list token) {struct fuel}
  : option (expr * list token) :=
  match fuel with
  | 0 => None
  | S f =>
    match ts with
    | NAME id :: rest =>
      if is_identifier id then parse_trailers f (Name id) rest else None
    | STRING s :: rest =>
      let (parts, rest') := take_strings rest in
      parse_trailers f (Str (s :: parts)) rest'
    | OP c :: rest =>
      if Ascii.eqb c "["%char then
        match parse_items f rest with
        | Some (items, rest') => parse_trailers f (ListDisplay items) rest'
        | None => None
        end
      else None
    | _ => None
    end
  end

with parse_trailers (fuel : nat) (e : expr) (ts : list token) {struct fuel}
  : option (expr * list token) :=
  match fuel with
  | 0 => None
  | S f =>
    match ts with
    | OP c :: rest =>
      if Ascii.eqb c "("%char then
        match parse_args f [] rest with
        | Some (args, rest') => parse_trailers f (CallExpr e args) rest'
        | None => None
        end
      else if Ascii.eqb c "."%char then
        match rest with
        | NAME id :: rest' =>
          if is_identifier id then parse_trailers f (Attribute e id) rest'
          else None
        | _ => None
        end
      else Some (e, ts)
    | _ => Some (e, ts)
    end
  end

with parse_items (fuel : nat) (ts : list token) {struct fuel}
  : option (list expr * list token) :=
  match fuel with
  | 0 => None
  | S f =>
    match ts with
    | [] => None
    | t :: rest =>
      if is_op "]"%char t then Some ([], rest)
      else
        match parse_expr f ts with
        | Some (e, t' :: rest') =>
          if is_op ","%char t' then
            match parse_items f rest' with
            | Some (items, rest'') => Some (e :: items, rest'')
            | None => None
            end
          else if is_op "]"%char t' then Some ([e], rest')
          else None
        | _ => None
        end
    end
  end

with parse_args (fuel : nat) (seen : list string) (ts : list token) {struct fuel}
  : option (list (option string * expr) * list token) :=
  match fuel with
  | 0 => None
  | S f =>
    match ts with
    | [] => None
    | t :: rest =>
      if is_op ")"%char t then Some ([], rest)
      else
        let keyword :=
          match ts with
          | NAME k :: t' :: rest' => if is_op "="%char t' then Some (k, rest') else None
          | _ => None
          end in
        let argument :=
          match keyword with
          | Some (k, rest') =>
            if is_identifier k && negb (existsb (String.eqb k) seen) then
              match parse_expr f rest' with
              | Some (e, rest'') => Some ((Some k, e), k :: seen, rest'')
              | None => None
              end
            else None
          | None =>
            match seen with
            | [] =>
              match parse_expr f ts with
              | Some (e, rest'') => Some ((None, e), seen, rest'')
              | None => None
              end
            | _ => None
            end
          end in
        match argument with
        | Some (a, seen', t' :: rest'') =>
          if is_op ","%char t' then
            match parse_args f seen' rest'' with
            | Some (args, rest''') => Some (a :: args, rest''')
            | None => None
            end
          else if is_op ")"%char t' then Some ([a], rest'')
          else None
        | _ => None
        end
    end
  end.

Fixpoint parse_dotted (ts : list token) : option (list string * list token) :=
  match ts with
  | NAME id :: rest =>
    if is_identifier id then
      match rest with
      | OP c :: rest' =>
        if Ascii.eqb c "."%char then
          match parse_dotted rest' with
          | Some (m, r) => Some (id :: m, r)
          | None => None
          end
        else Some ([id], rest)
      | _ => Some ([id], rest)
      end
    else None
  | _ => None
  end.

(** The names of an import written without brackets: separated by
    commas, none after the last. *)
Fixpoint parse_names (ts : list token) : option (list string) :=
  match ts with
  | NAME id :: rest =>
    if is_identifier id then
      match rest with
      | [] => Some [id]
      | OP c :: rest' =>
        if Ascii.eqb c ","%char then option_map (cons id) (parse_names rest')
        else None
      | _ => None
      end
    else None
  | _ => None
  end.

Definition parse_expression_statement (ts : list token) : option stmt :=
  match parse_expr (4 * List.length ts + 4) ts with
  | Some (e, []) => Some (ExprStmt e)
  | _ => None
  end.

(** One logical line.  An import from [__future__] is left out: its
    names are checked by the compiler. *)
Definition parse_statement (ts : list token) : option stmt :=
  match ts with
  | NAME kw :: rest =>
    if String.eqb kw "from" then
      match parse_dotted rest with
      | Some (m, NAME imp :: rest') =>
        if String.eqb imp "import"
           && negb (existsb (String.eqb "__future__") m)
        then option_map (FromImport m) (parse_names rest')
        else None
      | _ => None
      end
    else parse_expression_statement ts
  | _ => parse_expression_statement ts
  end.

Fixpoint parse_statements (ls : list (list token)) : option (list stmt) :=
  match ls with
  | [] => Some []
  | l :: rest =>
    match parse_statement l, parse_statements rest with
    | Some s, Some ss => Some (s :: ss)
    | _, _ => None
    end
  end.

(** The number of brackets left open by some tokens. *)
Definition depth_of (ts : list token) : nat :=
  fold_left
    (fun d t =>
       match t with
       | OP c => if opens c then S d else if closes c then Nat.pred d else d
       | _ => d
       end)
    ts 0.

Definition has_code (l : string) : bool :=
  existsb (fun t => match t with NEWLINE => false | _ => true end)
          (scan Code 0 "" l).

(** The physical lines on which a statement begins: those that hold code
    and start outside every bracket. *)
Fixpoint statement_lines (before : string) (ls : list string) : list string :=
  match ls with
  | [] => []
  | l :: rest =>
    (if Nat.eqb (depth_of (scan Code 0 "" before)) 0 && has_code l
     then [l] else [])
    ++ statement_lines (before ++ l ++ String LF "")%string rest
  end.

(** No statement of a module without blocks may be indented. *)
Definition unindented (ls : list string) : bool :=
  forallb
    (fun l => match l with
              | String c _ => negb (is_space c)
              | EmptyString => true
              end)
    (statement_lines "" ls).

(** The characters the grammar is read over: line feeds and printable
    ASCII without the backslash, so that a string literal has no escape
    and no line is continued. *)
Definition plain_char (c : ascii) : bool :=
  let n := nat_of_ascii c in
  Ascii.eqb c LF || (Nat.leb 32 n && Nat.leb n 126 && negb (Nat.eqb n 92)).

Fixpoint plain (s : string) : bool :=
  match s with
  | EmptyString => true
  | String c rest => plain_char c && plain rest
  end.

(** No three quotes in a row: every string literal is a one-line one. *)
Fixpoint triple_quote_free (s : string) : bool :=
  match s with
  | String a ((String b (String c _)) as rest) =>
    negb (is_quote a && Ascii.eqb a b && Ascii.eqb b c) && triple_quote_free rest
  | _ => true
  end.

Fixpoint has_hash (s : string) : bool :=
  match s with
  | EmptyString => false
  | String c rest => Ascii.eqb c "#"%char || has_hash rest
  end.

(** No comment on the first two lines, where one could declare an
    encoding. *)
Definition no_encoding_comment (ls : list string) : bool :=
  negb (existsb has_hash (firstn 2 ls)).

(** The deepest nesting of brackets. *)
Definition max_depth (ts : list token) : nat :=
  snd (fold_left
         (fun (st : nat * nat) t =>
            let (d, m) := st in
            match t with
            | OP c =>
              if opens c then (S d, Nat.max m (S d))
              else if closes c then (Nat.pred d, m)
              else (d, m)
            | _ => (d, m)
            end)
         ts (0, 0)).

(** The module a text is parsed as, when it is one.  The nesting of
    brackets and the number of tokens are kept within what every
    interpreter from 3.6 on takes. *)
Definition syntax (txt : string) : option (list stmt) :=
  let ts := scan Code 0 "" txt in
  let ls := splitlines "" txt in
  if plain txt && triple_quote_free txt && no_encoding_comment ls
     && well_bracketed ts && Nat.leb (max_depth ts) 50
     && Nat.leb (List.length ts) 500 && unindented ls
  then parse_statements (logical_lines [] ts)
  else None.

(** The keywords of a call. *)
Definition call_keywords (e : expr) : list string :=
  match e with
  | CallExpr _ args =>
    flat_map (fun a => match fst a with Some k => [k] | None => [] end) args
  | _ => []
  end.

End Source.

(* ===================================================================== *)
(** ** Sample environments *)
(* ===================================================================== *)

(** The supplied source tree: [setup.py] and nothing else. *)
Definition supplied_tree : directory :=
  [ ("setup.py", File true (list_byte_of_string Source.text)) ].

Definition with_readme (bs : list byte) (d : directory) : directory :=
  ("README.md", File true bs) :: d.

Definition readme_a : list byte := list_byte_of_string "# panda_math".

(** An interpreter that finds the reference setuptools whatever the
    working directory holds, and an environment with it. *)
Definition installed (st : Setuptools) : directory -> import_result :=
  fun _ => Loaded st.

Definition env_in (d : directory) : Env :=
  {| import_system := installed Finder.reference; cwd := d |}.

(** A checkout that also holds the package the manifest describes. *)
Definition full_tree : directory :=
  [ ("setup.py", File true (list_byte_of_string Source.text));
    ("README.md", File true readme_a);
    ("panda_math", Dir [ ("__init__.py", File true []);
                         ("vector.py", File true []);
                         ("transform", Dir [ ("__init__.py", File true []) ]);
                         ("notes", Dir [ ("todo.txt", File true []) ]) ]);
    ("docs", Dir [ ("index.md", File true []) ]) ].

(** An interpreter without setuptools. *)
Definition env_without_setuptools (d : directory) : Env :=
  {| import_system := fun _ => NoModule; cwd := d |}.

(** An interpreter with setuptools installed, for which a file
    [setuptools.py] beside the script is found first; an empty one has no
    [setup]. *)
Definition shadowed_by_local (d : directory) : import_result :=
  if isfile "setuptools.py" d then NoName "setup" else Loaded Finder.reference.

(** A setuptools whose [setup] raises, as it does when [setup.py] is run
    without a command. *)
Definition refusing : Setuptools :=
  {| st_find_packages := fun d => inr (Finder.find d);
     st_setup := fun _ _ => Some "error: no commands supplied" |}.

(** A [README.md] saved as UTF-16 (byte order mark FF FE, then "#"), one
    with Windows line ends, a checkout where [README.md] is a directory,
    one where it cannot be read and one where it is a link to nothing. *)
Definition readme_utf16 : list byte := [xff; xfe; x23; x00].

Definition readme_crlf : list byte :=
  [x23; x20; x61; x0d; x0a; x62; x0d; x63].


Definition readme_unreadable : directory :=
  ("README.md", File false readme_a) :: supplied_tree.


Definition readme_loops : directory :=
  ("README.md", Other "ELOOP") :: supplied_tree.

(* ===================================================================== *)
(** ** Notions used in the statements *)
(* ===================================================================== *)

(** What [open(path, encoding="utf-8")] gives in a directory: the bytes
    of the file, or the error it raises. *)
Definition read_bytes (path : string) (d : directory) : exn + list byte :=
  match lookup path d with
  | None => inl (FileNotFoundError path)
  | Some n => open_node path n
  end.

(** What [open(path, encoding="utf-8").read()] amounts to in a directory. *)
Definition read_text (path : string) (d : directory) : exn + str :=
  match read_bytes path d with
  | inl e => inl e
  | inr bs =>
    match text_of bs with
    | Some s => inr s
    | None => inl (UnicodeDecodeError "utf-8")
    end
  end.

(** How often [setup] is called in a log. *)
Fixpoint setup_calls (t : list event) : nat :=
  match t with
  | [] => 0
  | ESetup _ :: rest => S (setup_calls rest)
  | _ :: rest => setup_calls rest
  end.

(** No carriage return among the bytes. *)
Definition no_cr (bs : list byte) : bool :=
  forallb (fun b => negb (N.eqb (Byte.to_N b) 13)) bs.

(** Trove classifiers that state a licence. *)
Definition is_license_classifier (s : str) : bool := String.prefix "License ::" s.

Definition classifiers_of (kw : kwargs) : list str :=
  match get "classifiers" kw with
  | Some (VList l) => l
  | _ => []
  end.

(** The licences a call declares: its [license] keyword, when it has one,
    and its licence classifiers. *)
Definition declared_licenses (kw : kwargs) : list str :=
  match get "license" kw with
  | Some (VStr l) => [l]
  | _ => []
  end ++ filter is_license_classifier (classifiers_of kw).

(** A carriage return among the characters of a text. *)
Fixpoint has_cr (s : str) : bool :=
  match s with
  | EmptyString => false
  | String c rest => Ascii.eqb c CR || has_cr rest
  end.


(** The byte values that occur in no well-formed UTF-8 sequence: C0, C1 and
    F5 to FF. *)
Definition never_in_utf8 (b : byte) : bool :=
  between 192 193 b || between 245 255 b.

Definition import_event : event := EImport "setuptools" ["setup"; "find_packages"].
Definition open_event : event := EOpen "README.md" "utf-8".
Definition read_event : event := ERead "README.md".

(* ===================================================================== *)
(** * Properties *)
(* ===================================================================== *)

(** ** Running the module *)

(** The evaluation, case by case. *)
Lemma setup_py_run (env : Env) :
  setup_py env =
  match imported env with
  | NoModule => ([import_event], inl (ModuleNotFoundError "setuptools"))
  | NoName name => ([import_event], inl (ImportError name))
  | BodyRaised msg => ([import_event], inl (SetuptoolsError msg))
  | Loaded st =>
    match st_find_packages st (cwd env) with
    | inl msg =>
      ([import_event; EFindPackagesRaised msg], inl (SetuptoolsError msg))
    | inr pkgs =>
      match read_bytes "README.md" (cwd env) with
      | inl e => ([import_event; EFindPackages pkgs; open_event], inl e)
      | inr bs =>
        match text_of bs with
        | None =>
          ([import_event; EFindPackages pkgs; open_event; read_event],
           inl (UnicodeDecodeError "utf-8"))
        | Some s =>
          ([import_event; EFindPackages pkgs; open_event; read_event;
            ESetup (setup_attrs pkgs s)],
           match st_setup st (cwd env) (setup_attrs pkgs s) with
           | None => inr tt
           | Some msg => inl (SetuptoolsError msg)
           end)
        end
      end
    end
  end.
Proof.
  unfold setup_py, import_setuptools, find_packages, open, read, setup,
    read_bytes, bind, ask, log, ret, raise; simpl.
  destruct (imported env) as [st| |name|msg]; simpl; try reflexivity.
  destruct (st_find_packages st (cwd env)) as [msg|pkgs]; simpl; [reflexivity|].
  destruct (lookup "README.md" (cwd env)) as [n|]; simpl; [|reflexivity].
  destruct (open_node "README.md" n) as [e|bs]; simpl; [reflexivity|].
  destruct (text_of bs) as [s|]; simpl; [|reflexivity].
  destruct (st_setup st (cwd env) _); reflexivity.
Qed.

(** [setup] is reached exactly when the import succeeds, [find_packages()]
    returns and [README.md] can be opened and decoded; its arguments are
    then those of [setup_attrs]. *)
Lemma setup_call_inv (env : Env) (kw : kwargs) :
  setup_call env = Some kw <->
  exists st pkgs s,
    imported env = Loaded st
    /\ st_find_packages st (cwd env) = inr pkgs
    /\ read_text "README.md" (cwd env) = inr s
    /\ kw = setup_attrs pkgs s.
Proof.
  unfold setup_call, trace, read_text. rewrite setup_py_run.
  destruct (imported env) as [st| |name|msg]; simpl.
  2-4: split; [discriminate|]; intros (st' & p & s' & H & _); discriminate.
  destruct (st_find_packages st (cwd env)) as [msg|pkgs] eqn:Hf; simpl.
  { split; [discriminate|]. intros (st' & p & s' & H1 & H2 & _).
    injection H1 as <-. congruence. }
  destruct (read_bytes "README.md" (cwd env)) as [e|bs]; simpl.
  { split; [discriminate|]. intros (st' & p & s' & _ & _ & H & _). discriminate. }
  destruct (text_of bs) as [s|]; simpl.
  - split.
    + intros H. injection H as <-. exists st, pkgs, s. auto.
    + intros (st' & p & s' & H1 & H2 & H3 & ->).
      injection H1 as <-. rewrite Hf in H2.
      injection H2 as <-. injection H3 as <-. reflexivity.
  - split; [discriminate|]. intros (st' & p & s' & _ & _ & H & _). discriminate.
Qed.

(** [called H]: from [H : setup_call env = Some kw], the arguments. *)
Ltac called H :=
  let st := fresh "st" in
  let pkgs := fresh "pkgs" in
  let s := fresh "s" in
  apply setup_call_inv in H as (st & pkgs & s & _ & _ & _ & ->).

Lemma read_bytes_file (d : directory) (bs : list byte) :
  lookup "README.md" d = Some (File true bs) ->
  read_bytes "README.md" d = inr bs.
Proof. intros H. unfold read_bytes. rewrite H. reflexivity. Qed.

Lemma read_text_bytes (d : directory) (bs : list byte) (s : str) :
  read_bytes "README.md" d = inr bs -> text_of bs = Some s ->
  read_text "README.md" d = inr s.
Proof. intros Hb Ht. unfold read_text. rewrite Hb, Ht. reflexivity. Qed.

Lemma read_text_inr (d : directory) (s : str) :
  read_text "README.md" d = inr s ->
  exists bs, read_bytes "README.md" d = inr bs /\ text_of bs = Some s.
Proof.
  unfold read_text. destruct (read_bytes "README.md" d) as [e|bs]; [discriminate|].
  destruct (text_of bs) as [s'|] eqn:Ht; [|discriminate].
  intros H. injection H as <-. exists bs. auto.
Qed.

Lemma text_of_valid (bs : list byte) (s : str) :
  text_of bs = Some s -> utf8_valid bs = true.
Proof.
  unfold text_of, decode_utf8. destruct (utf8_valid bs); [reflexivity|discriminate].
Qed.

Lemma valid_text_of (bs : list byte) :
  utf8_valid bs = true ->
  text_of bs = Some (universal_newlines (string_of_list_byte bs)).
Proof. intros H. unfold text_of, decode_utf8. rewrite H. reflexivity. Qed.


Lemma ascii_of_byte_not_cr (b : byte) :
  N.eqb (Byte.to_N b) 13 = false -> Ascii.eqb (ascii_of_byte b) CR = false.
Proof. destruct b; intros H; solve [reflexivity | discriminate H]. Qed.

(** Without carriage returns the text is the file, byte for byte. *)
Lemma universal_newlines_no_cr (bs : list byte) :
  no_cr bs = true ->
  universal_newlines (string_of_list_byte bs) = string_of_list_byte bs.
Proof.
  induction bs as [|b bs IH]; [reflexivity|].
  intros H. apply andb_true_iff in H as [Hb Hbs].
  apply negb_true_iff in Hb.
  change (string_of_list_byte (b :: bs))
    with (String (ascii_of_byte b) (string_of_list_byte bs)).
  cbn [universal_newlines].
  rewrite (ascii_of_byte_not_cr b Hb), (IH Hbs). reflexivity.
Qed.

Lemma node_induction (P : node -> Prop) :
  (forall r bs, P (File r bs)) ->
  (forall es, Forall (fun e => P (snd e)) es -> P (Dir es)) ->
  P (Symlink None) ->
  (forall t, P t -> P (Symlink (Some t))) ->
  (forall errno, P (Other errno)) ->
  forall n, P n.
Proof.
  intros Hfile Hdir Hnone Hlink Hother. fix IH 1. intros [r bs|es|[t|]|errno].
  - apply Hfile.
  - apply Hdir. induction es as [|[name x] es IHes]; constructor.
    + apply IH.
    + exact IHes.
  - apply Hlink, IH.
  - apply Hnone.
  - apply Hother.
Qed.


(** ** The working directory decides whether [setup] is reached *)

(** C3, as amended. Provided the import on line 1 succeeds and
    [find_packages()] returns:
    - when [README.md] is, or links to, a readable regular file whose
      bytes decode as UTF-8, [setup] is called and its [long_description]
      is the text of the file, as text mode reads it (line ends as line
      feeds; byte for byte when the file has no carriage return);
    - when [README.md] does not exist, the evaluation ends with
      [FileNotFoundError] and [setup] has not been called;
    - [setup] is called only if [README.md] can be opened and holds
      well-formed UTF-8. *)
Theorem readme_required (env : Env) (st : Setuptools) (pkgs : list str) :
  imported env = Loaded st ->
  st_find_packages st (cwd env) = inr pkgs ->
  (forall bs, read_bytes "README.md" (cwd env) = inr bs ->
              utf8_valid bs = true ->
     exists kw, setup_call env = Some kw
       /\ get "long_description" kw
          = Some (VStr (universal_newlines (string_of_list_byte bs)))
       /\ (no_cr bs = true ->
           get "long_description" kw = Some (VStr (string_of_list_byte bs))))
  /\ (lookup "README.md" (cwd env) = None ->
        outcome env = inl (FileNotFoundError "README.md")
        /\ setup_call env = None
        /\ setup_calls (trace env) = 0)
  /\ (forall kw, setup_call env = Some kw ->
        exists bs, read_bytes "README.md" (cwd env) = inr bs
                   /\ utf8_valid bs = true).
Proof.
  intros Hst Hf. split; [|split].
  - intros bs Hb Hv.
    pose proof (read_text_bytes (cwd env) Hb (valid_text_of bs Hv)) as Hr.
    eexists. split; [|split].
    + apply setup_call_inv. exists st, pkgs. eexists. repeat split; eassumption.
    + reflexivity.
    + intros Hcr. simpl. rewrite (universal_newlines_no_cr bs Hcr). reflexivity.
  - intros Hl. unfold outcome, setup_call, trace.
    rewrite setup_py_run, Hst, Hf. unfold read_bytes. rewrite Hl. simpl.
    repeat split; reflexivity.
  - intros kw Hc. apply setup_call_inv in Hc as (st' & p & s & _ & _ & Hr & _).
    apply read_text_inr in Hr as (bs & Hb & Ht).
    exists bs. split; [exact Hb | exact (text_of_valid bs Ht)].
Qed.

Lemma readme_required_witness :
  imported (env_in full_tree) = Loaded Finder.reference
  /\ st_find_packages Finder.reference (cwd (env_in full_tree))
     = inr ["panda_math"; "panda_math.transform"]
  /\ (exists kw, setup_call (env_in full_tree) = Some kw
                /\ get "long_description" kw = Some (VStr "# panda_math"))
  /\ (outcome (env_in supplied_tree) = inl (FileNotFoundError "README.md")
      /\ setup_call (env_in supplied_tree) = None).
Proof.
  split; [reflexivity|]. split; [reflexivity|]. split.
  - destruct (@readme_required (env_in full_tree) Finder.reference
                ["panda_math"; "panda_math.transform"] eq_refl eq_refl)
      as [H _].
    destruct (H readme_a eq_refl eq_refl) as (kw & Hc & Hl & _).
    exists kw. split; [exact Hc | exact Hl].
  - destruct (@readme_required (env_in supplied_tree) Finder.reference []
                eq_refl eq_refl) as (_ & H & _).
    destruct (H eq_refl) as (Ho & Hc & _). split; [exact Ho | exact Hc].
Defined.

(** C3, as stated, fails.  Where setuptools cannot be imported, a missing
    [README.md] does not give a file-not-found error: the evaluation ends
    at line 1 with [ModuleNotFoundError].  And a [README.md] that exists
    and holds well-formed UTF-8 but cannot be read does not give a
    [long_description]: the evaluation ends with [PermissionError] and
    [setup] is not called. *)
Lemma readme_claim_fails :
  lookup "README.md" (cwd (env_without_setuptools supplied_tree)) = None
  /\ outcome (env_without_setuptools supplied_tree)
     = inl (ModuleNotFoundError "setuptools")
  /\ outcome (env_without_setuptools supplied_tree)
     <> inl (FileNotFoundError "README.md")
  /\ lookup "README.md" (cwd (env_in readme_unreadable))
     = Some (File false readme_a)
  /\ utf8_valid readme_a = true
  /\ outcome (env_in readme_unreadable) = inl (PermissionError "README.md")
  /\ setup_call (env_in readme_unreadable) = None.
Proof.
  repeat split; try reflexivity. vm_compute. discriminate.
Qed.

(** ** The constant fields of the call *)

(** The sample call: what [setup] receives in the full checkout. *)
Lemma sample_call :
  setup_call (env_in full_tree)
  = Some (setup_attrs ["panda_math"; "panda_math.transform"] "# panda_math").
Proof. reflexivity. Qed.

(** C4. Whenever [setup] is called, its [name] argument is the string
    "panda_math" and its [version] argument is the string "0.1.1"; these
    are the literals written for the two keywords in the file. *)
Theorem name_and_version (env : Env) (kw : kwargs) :
  setup_call env = Some kw ->
  get "name" kw = Some (VStr "panda_math")
  /\ get "version" kw = Some (VStr "0.1.1")
  /\ Source.written "name" = Some (VStr "panda_math")
  /\ Source.written "version" = Some (VStr "0.1.1").
Proof.
  intros H. called H.
  repeat split; reflexivity.
Qed.

Lemma name_and_version_witness :
  setup_call (env_in full_tree)
  = Some (setup_attrs ["panda_math"; "panda_math.transform"] "# panda_math")
  /\ get "name" (setup_attrs ["panda_math"; "panda_math.transform"] "# panda_math")
     = Some (VStr "panda_math")
  /\ get "version" (setup_attrs ["panda_math"; "panda_math.transform"] "# panda_math")
     = Some (VStr "0.1.1").
Proof.
  split; [reflexivity|].
  destruct (name_and_version (env_in full_tree) eq_refl) as (Hn & Hv & _).
  split; [exact Hn | exact Hv].
Defined.

(** C5. Whenever [setup] is called, its [install_requires] argument is
    the one-element list ["numpy"], as written in the file: one dependency
    and no other, also not under the other keywords by which a call can
    require distributions. *)
Theorem one_dependency (env : Env) (kw : kwargs) :
  setup_call env = Some kw ->
  get "install_requires" kw = Some (VList ["numpy"])
  /\ Source.written "install_requires" = Some (VList ["numpy"])
  /\ get "setup_requires" kw = None
  /\ get "extras_require" kw = None
  /\ get "tests_require" kw = None.
Proof.
  intros H. called H. repeat split; reflexivity.
Qed.

Lemma one_dependency_witness :
  setup_call (env_in full_tree)
  = Some (setup_attrs ["panda_math"; "panda_math.transform"] "# panda_math")
  /\ get "install_requires"
       (setup_attrs ["panda_math"; "panda_math.transform"] "# panda_math")
     = Some (VList ["numpy"]).
Proof.
  split; [reflexivity|].
  exact (proj1 (one_dependency (env_in full_tree) eq_refl)).
Defined.

Lemma parse_requires : Specifier.parse ">=3.6" = Some (Specifier.Ge, [3; 6]).
Proof. reflexivity. Qed.

(** The requirement ">=3.6" admits exactly the releases from 3.6 on. *)
Lemma at_least_3_6 (v : Specifier.PythonVersion) :
  Specifier.satisfied_by ">=3.6" v = true
  <-> 3 < Specifier.major v \/ (Specifier.major v = 3 /\ 6 <= Specifier.minor v).
Proof.
  unfold Specifier.satisfied_by. rewrite parse_requires.
  destruct v as [a b c]. cbn [Specifier.release Specifier.major Specifier.minor
    Specifier.micro Specifier.compare_release].
  destruct (Nat.compare_spec a 3) as [Ha|Ha|Ha]; cbn [Specifier.holds].
  - destruct (Nat.compare_spec b 6) as [Hb|Hb|Hb]; cbn [Specifier.holds].
    + destruct (Nat.compare_spec c 0) as [Hc|Hc|Hc]; cbn [Specifier.holds];
        (split; [intros _; lia | reflexivity || lia]).
    + split; [discriminate | lia].
    + split; [intros _; lia | reflexivity].
  - split; [discriminate | lia].
  - split; [intros _; lia | reflexivity].
Qed.

(** C7. Whenever [setup] is called, its [python_requires] argument is the
    string ">=3.6", as written in the file, and an interpreter release
    [major.minor.micro] satisfies that requirement exactly when it is 3.6
    or later: every release at or above 3.6 does, every release below 3.6
    does not. *)
Theorem minimum_python (env : Env) (kw : kwargs) :
  setup_call env = Some kw ->
  exists requires,
    get "python_requires" kw = Some (VStr requires)
    /\ requires = ">=3.6"
    /\ Source.written "python_requires" = Some (VStr requires)
    /\ forall v : Specifier.PythonVersion,
         Specifier.satisfied_by requires v = true
         <-> 3 < Specifier.major v
             \/ (Specifier.major v = 3 /\ 6 <= Specifier.minor v).
Proof.
  intros H. called H.
  exists ">=3.6". repeat split; try reflexivity; apply at_least_3_6.
Qed.

Lemma minimum_python_witness :
  setup_call (env_in full_tree)
  = Some (setup_attrs ["panda_math"; "panda_math.transform"] "# panda_math")
  /\ exists requires,
       get "python_requires"
         (setup_attrs ["panda_math"; "panda_math.transform"] "# panda_math")
       = Some (VStr requires)
       /\ Specifier.satisfied_by requires
            {| Specifier.major := 3; Specifier.minor := 12; Specifier.micro := 1 |}
          = true
       /\ Specifier.satisfied_by requires
            {| Specifier.major := 3; Specifier.minor := 5; Specifier.micro := 10 |}
          = false.
Proof.
  split; [reflexivity|].
  destruct (minimum_python (env_in full_tree) eq_refl) as (r & Hg & Hr & _).
  exists r. split; [exact Hg|]. rewrite Hr. split; reflexivity.
Defined.

(** C8. Whenever [setup] is called, its [classifiers] argument is the list
    written in the file: it contains "License :: OSI Approved :: MIT
    License" together with the Python 3 language classifier and the
    OS-independence classifier, and no other entry. *)
Theorem classifiers_exact (env : Env) (kw : kwargs) :
  setup_call env = Some kw ->
  get "classifiers" kw
  = Some (VList [ "Programming Language :: Python :: 3";
                  "License :: OSI Approved :: MIT License";
                  "Operating System :: OS Independent" ])
  /\ Source.written "classifiers" = get "classifiers" kw
  /\ In "License :: OSI Approved :: MIT License" (classifiers_of kw)
  /\ length (classifiers_of kw) = 3
  /\ forall c, In c (classifiers_of kw) <->
       c = "License :: OSI Approved :: MIT License"
       \/ c = "Programming Language :: Python :: 3"
       \/ c = "Operating System :: OS Independent".
Proof.
  intros H. called H.
  split; [reflexivity|]. split; [reflexivity|].
  split; [right; left; reflexivity|]. split; [reflexivity|].
  intros c. cbn. split.
  - intros [ <- | [ <- | [ <- | [] ] ] ]; auto.
  - intros [ -> | [ -> | -> ] ]; auto.
Qed.

Lemma classifiers_exact_witness :
  setup_call (env_in full_tree)
  = Some (setup_attrs ["panda_math"; "panda_math.transform"] "# panda_math")
  /\ get "classifiers"
       (setup_attrs ["panda_math"; "panda_math.transform"] "# panda_math")
     = Some (VList [ "Programming Language :: Python :: 3";
                     "License :: OSI Approved :: MIT License";
                     "Operating System :: OS Independent" ]).
Proof.
  split; [reflexivity|].
  exact (proj1 (classifiers_exact (env_in full_tree) eq_refl)).
Defined.

(** ** Packages *)







(** *** The reference finder meets the contract *)

Lemma append_assoc (a b c : string) : ((a ++ b) ++ c = a ++ (b ++ c))%string.
Proof. induction a as [|x a IH]; simpl; [reflexivity | rewrite IH; reflexivity]. Qed.

Lemma append_empty_r (a : string) : (a ++ "")%string = a.
Proof. induction a as [|x a IH]; simpl; [reflexivity | rewrite IH; reflexivity]. Qed.

Lemma split_dots_app (x : string) :
  forall acc s, Finder.contains_dot x = false ->
    Finder.split_dots acc (x ++ s) = Finder.split_dots (acc ++ x) s.
Proof.
  induction x as [|c x IH]; intros acc s Hx; simpl.
  - rewrite append_empty_r. reflexivity.
  - simpl in Hx. apply orb_false_iff in Hx as [Hc Hx]. rewrite Hc.
    rewrite (IH _ s Hx), append_assoc. reflexivity.
Qed.

Lemma split_dots_dot (acc s : string) :
  Finder.split_dots acc (String "."%char s) = acc :: Finder.split_dots "" s.
Proof. reflexivity. Qed.

(** Splitting a dotted name gives back the path it was joined from. *)
Lemma split_dots_concat (path : list string) :
  path <> [] ->
  Forall (fun x => Finder.contains_dot x = false) path ->
  Finder.split_dots "" (String.concat "." path) = path.
Proof.
  induction path as [|x rest IH]; intros Hne Hall; [congruence|].
  inversion Hall as [|? ? Hx Hrest]; subst.
  destruct rest as [|y rest'].
  - simpl. rewrite <- (append_empty_r x) at 1.
    rewrite (split_dots_app x "" "" Hx). reflexivity.
  - change (String.concat "." (x :: y :: rest'))
      with (x ++ String "."%char (String.concat "." (y :: rest')))%string.
    rewrite (split_dots_app x "" _ Hx), split_dots_dot.
    rewrite (IH ltac:(discriminate) Hrest). reflexivity.
Qed.

Lemma distinct_lookup (d : directory) (name : string) (x : node) :
  Finder.distinct (map fst d) = true -> In (name, x) d ->
  lookup name d = Some x.
Proof.
  induction d as [|[n y] d IH]; simpl; [intros _ []|].
  intros Hd Hin. apply andb_true_iff in Hd as [Hn Hd].
  destruct Hin as [Heq|Hin].
  - injection Heq as -> ->. rewrite String.eqb_refl. reflexivity.
  - destruct (String.eqb_spec name n) as [->|_]; [|apply IH; assumption].
    apply negb_true_iff in Hn.
    assert (existsb (String.eqb n) (map fst d) = true) as Hex.
    { apply existsb_exists. exists n. split; [|apply String.eqb_refl].
      apply (in_map fst) in Hin. exact Hin. }
    congruence.
Qed.

(** Every name the walk reports is the prefix followed by a dotted path
    that leads, through directories, to a package directory. *)
Lemma find_iter_paths (n : node) :
  Finder.unique_names n = true ->
  forall prefix p, In p (Finder.find_iter prefix n) ->
    exists path d es,
      as_dir n = Some d /\ path <> []
      /\ Forall (fun x => Finder.contains_dot x = false) path
      /\ p = (prefix ++ String.concat "." path)%string
      /\ Finder.resolve path d = Some es
      /\ isfile Finder.INIT es = true.
Proof.
  induction n as [r bs|es IH| |t IH|errno] using node_induction;
    intros Hu prefix p Hin; try (destruct Hin).
  - cbn [Finder.unique_names] in Hu. apply andb_true_iff in Hu as [Hd Hsub].
    cbn [Finder.find_iter] in Hin. apply in_app_or in Hin as [Hin|Hin];
      apply in_flat_map in Hin as ([name x] & He & Hin);
      unfold Finder.is_package_entry in Hin; cbn [fst snd] in Hin;
      destruct (negb (Finder.contains_dot name)) eqn:Hdot; cbn [andb] in Hin;
      try destruct Hin;
      destruct (Finder.looks_like_package x) eqn:Hpkg; try destruct Hin;
      apply negb_true_iff in Hdot;
      pose proof (distinct_lookup es name x Hd He) as Hl;
      unfold Finder.looks_like_package in Hpkg;
      destruct (as_dir x) as [dx|] eqn:Hx; try discriminate Hpkg.
    + cbn [andb] in Hin.
      destruct (negb (Finder.excluded (prefix ++ name)%string)); [|destruct Hin].
      destruct Hin as [<-|[]].
      exists [name], es, dx. repeat split; auto; [discriminate|].
      cbn [Finder.resolve]. rewrite Hl, Hx. reflexivity.
    + rewrite Forall_forall in IH. specialize (IH _ He). cbn [snd] in IH.
      rewrite forallb_forall in Hsub. specialize (Hsub _ He). cbn [snd] in Hsub.
      destruct (IH Hsub _ _ Hin)
        as (path & d' & es' & Hd' & Hne & Hall & -> & Hres & Hm).
      rewrite Hx in Hd'. injection Hd' as <-.
      exists (name :: path), es, es'. repeat split; auto; [discriminate| |].
      * destruct path as [|y rest]; [congruence|].
        change (String.concat "." (name :: y :: rest))
          with (name ++ String "."%char (String.concat "." (y :: rest)))%string.
        rewrite !append_assoc. reflexivity.
      * cbn [Finder.resolve]. rewrite Hl, Hx. exact Hres.
  - cbn [Finder.unique_names] in Hu. cbn [Finder.find_iter] in Hin.
    destruct (IH Hu _ _ Hin) as (path & d & es & H).
    exists path, d, es. exact H.
Qed.

(** On a directory tree that lists every name once, the reference finder
    reports packages only. *)
Lemma reference_sound (d : directory) :
  Finder.unique_names (Dir d) = true ->
  Finder.sound_on Finder.reference d = true.
Proof.
  intros Hu. unfold Finder.sound_on. cbn [st_find_packages Finder.reference].
  apply forallb_forall. intros p Hin.
  destruct (find_iter_paths (Dir d) Hu "" p Hin)
    as (path & d' & es & Heq & Hne & Hall & -> & Hres & Hm).
  injection Heq as <-. unfold Finder.is_package.
  change ("" ++ String.concat "." path)%string with (String.concat "." path).
  rewrite (split_dots_concat Hne Hall), Hres. exact Hm.
Qed.

(** The names [find_packages] always leaves out are not reported, though
    what lies below them is. *)
Lemma reference_excludes :
  Finder.find [ ("ez_setup", Dir [ ("__init__.py", File true []);
                                   ("sub", Dir [ ("__init__.py", File true []) ]) ]);
                ("__pycache__", Dir [ ("__init__.py", File true []) ]);
                ("pkg.old", Dir [ ("__init__.py", File true []) ]) ]
  = ["ez_setup.sub"].
Proof. reflexivity. Qed.



(** ** The shape of the module *)

(** Every log starts with the import and calls [setup] at most once, as
    its last step. *)
Lemma trace_shape (env : Env) :
  exists mid, trace env = import_event :: mid
    /\ (setup_calls mid = 0
        \/ exists pre kw, mid = pre ++ [ESetup kw] /\ setup_calls pre = 0).
Proof.
  unfold trace. rewrite setup_py_run.
  destruct (imported env) as [st| |name|msg];
    try (exists []; split; [reflexivity | left; reflexivity]).
  destruct (st_find_packages st (cwd env)) as [msg|pkgs];
    [eexists; split; [reflexivity | left; reflexivity]|].
  destruct (read_bytes "README.md" (cwd env)) as [e|bs];
    [eexists; split; [reflexivity | left; reflexivity]|].
  destruct (text_of bs) as [s|];
    [|eexists; split; [reflexivity | left; reflexivity]].
  eexists. split; [reflexivity|]. right.
  exists [EFindPackages pkgs; open_event; read_event].
  eexists. split; reflexivity.
Qed.

(** C9. The file is metadata only: its twenty lines hold two statements,
    the import from setuptools and one call to [setup]; no name in it is
    [def], [class] or [lambda], and none is [Vector] or [Matrix] (the words
    occur in a string literal only).  Accordingly every evaluation starts
    with the import and calls [setup] at most once, as its last step. *)
Theorem metadata_only :
  length (Source.splitlines "" Source.text) = 20
  /\ Source.splitlines "" Source.text = Source.lines
  /\ Source.statements
     = [ Source.ImportFrom "setuptools" ["setup"; "find_packages"];
         Source.Call "setup" ]
  /\ Source.defines_code Source.tokens = false
  /\ existsb (fun n => String.eqb n "Vector" || String.eqb n "Matrix")
       (Source.names Source.tokens) = false
  /\ Source.well_bracketed Source.tokens = true
  /\ forall env : Env,
       exists mid, trace env = import_event :: mid
         /\ (setup_calls mid = 0
             \/ exists pre kw, mid = pre ++ [ESetup kw] /\ setup_calls pre = 0).
Proof.
  repeat split; try (vm_compute; reflexivity).
  apply trace_shape.
Qed.

(** ** The errors of the module's own statements *)

(** A file [setuptools.py] beside [setup.py] decides the import: in the
    same checkout the evaluation returns without it and ends with
    [ImportError] with it. *)
Lemma local_module_hides_setuptools :
  outcome {| import_system := shadowed_by_local; cwd := full_tree |} = inr tt
  /\ outcome {| import_system := shadowed_by_local;
                cwd := ("setuptools.py", File true []) :: full_tree |}
     = inl (ImportError "setup").
Proof. split; reflexivity. Qed.




(** ** What the arguments take from the file system *)





(** ** Consistency of the declared metadata *)

Lemma keys_nodup (p : list str) (s : str) : NoDup (keys (setup_attrs p s)).
Proof.
  unfold keys, setup_attrs. cbn [map fst].
  repeat (constructor; [cbn [In]; intuition discriminate|]).
  constructor.
Qed.

(** The grammar refuses what Python refuses: names of an import that are
    not separated by commas or end with a comma, an indented statement, a
    repeated keyword, a positional argument after a keyword argument, a
    bracket left open, a statement that is not a call or an import. *)
Lemma syntax_refuses :
  Source.syntax "from setuptools import setup find_packages" = None
  /\ Source.syntax "from setuptools import setup, find_packages," = None
  /\ Source.syntax " setup()" = None
  /\ Source.syntax "setup(a=b, a=c)" = None
  /\ Source.syntax "setup(a=b, c)" = None
  /\ Source.syntax "setup(a=b" = None
  /\ Source.syntax "def f(): pass" = None
  /\ Source.syntax "setup(a=b, c=[d, e.f(),],)"
     = Some [ Source.ExprStmt
                (Source.CallExpr (Source.Name "setup")
                   [ (Some "a", Source.Name "b");
                     (Some "c",
                      Source.ListDisplay
                        [ Source.Name "d";
                          Source.CallExpr
                            (Source.Attribute (Source.Name "e") "f") [] ]) ]) ].
Proof. repeat split; vm_compute; reflexivity. Qed.

(** C10, as amended. The manifest is syntactically valid: its text parses
    as a module of two statements, the import and the call of [setup].
    Its metadata is consistent: whenever [setup] is called, the [name],
    [version] and [install_requires] keywords are present; the call has no
    [license] keyword, the licence being declared by the classifier
    "License :: OSI Approved :: MIT License" in the [classifiers] list,
    which is the only licence the call states, so no field contradicts
    another; the version is a well-formed release number and the Python 3
    the language classifier names is admitted by [python_requires].  The
    keywords passed are those of the parsed call, and none is repeated. *)
Theorem consistent_metadata (env : Env) (kw : kwargs) :
  setup_call env = Some kw ->
  (exists call,
     Source.syntax Source.text
     = Some [ Source.FromImport ["setuptools"] ["setup"; "find_packages"];
              Source.ExprStmt call ]
     /\ Source.call_keywords call = keys kw)
  /\ (get "name" kw = Some (VStr "panda_math")
      /\ get "version" kw = Some (VStr "0.1.1")
      /\ get "install_requires" kw = Some (VList ["numpy"]))
  /\ get "license" kw = None
  /\ In "License :: OSI Approved :: MIT License" (classifiers_of kw)
  /\ declared_licenses kw = ["License :: OSI Approved :: MIT License"]
  /\ Specifier.parse_release None "0.1.1" = Some [0; 1; 1]
  /\ Specifier.satisfied_by ">=3.6"
       {| Specifier.major := 3; Specifier.minor := 6; Specifier.micro := 0 |}
     = true
  /\ keys kw = Source.keywords 0 Source.call_tokens
  /\ NoDup (keys kw).
Proof.
  intros H. called H.
  split.
  { eexists. split; [vm_compute; reflexivity | reflexivity]. }
  split; [repeat split; reflexivity|].
  split; [reflexivity|].
  split; [right; left; reflexivity|].
  repeat (split; [reflexivity|]).
  apply keys_nodup.
Qed.

Lemma consistent_metadata_witness :
  setup_call (env_in full_tree)
  = Some (setup_attrs ["panda_math"; "panda_math.transform"] "# panda_math")
  /\ declared_licenses
       (setup_attrs ["panda_math"; "panda_math.transform"] "# panda_math")
     = ["License :: OSI Approved :: MIT License"].
Proof.
  split; [reflexivity|].
  destruct (@consistent_metadata (env_in full_tree) _ eq_refl)
    as (_ & _ & _ & _ & H & _).
  exact H.
Defined.

(** C10, as stated, fails: the call made in the full checkout has no
    [license] field, and no [license] keyword is written in the file. *)
Lemma license_keyword_absent :
  setup_call (env_in full_tree)
  = Some (setup_attrs ["panda_math"; "panda_math.transform"] "# panda_math")
  /\ get "license"
       (setup_attrs ["panda_math"; "panda_math.transform"] "# panda_math")
     = None
  /\ Source.argument "license" false 0 Source.call_tokens = []
  /\ existsb (String.eqb "license") (Source.names Source.tokens) = false
  /\ ~ (forall env kw, setup_call env = Some kw -> get "license" kw <> None).
Proof.
  repeat split; try reflexivity.
  intros H. apply (H (env_in full_tree) _ eq_refl). reflexivity.
Qed.


(* ===================================================================== *)
(** * Further properties of the evaluation *)
(* ===================================================================== *)

(** ** How an evaluation ends *)





(** X4. The evaluation returns normally exactly when the import succeeds,
    [find_packages()] returns, [README.md] can be opened and holds
    well-formed UTF-8, and [setup] accepts the call.  When all but the
    last hold and [setup] raises, the evaluation ends with that error of
    setuptools, after [setup] has been called. *)
Theorem completion (env : Env) :
  (outcome env = inr tt
   <-> exists st pkgs bs,
         imported env = Loaded st
         /\ st_find_packages st (cwd env) = inr pkgs
         /\ read_bytes "README.md" (cwd env) = inr bs
         /\ utf8_valid bs = true
         /\ st_setup st (cwd env)
              (setup_attrs pkgs (universal_newlines (string_of_list_byte bs)))
            = None)
  /\ (forall st pkgs bs msg,
        imported env = Loaded st ->
        st_find_packages st (cwd env) = inr pkgs ->
        read_bytes "README.md" (cwd env) = inr bs ->
        utf8_valid bs = true ->
        st_setup st (cwd env)
          (setup_attrs pkgs (universal_newlines (string_of_list_byte bs)))
        = Some msg ->
        outcome env = inl (SetuptoolsError msg)
        /\ setup_call env
           = Some (setup_attrs pkgs
                     (universal_newlines (string_of_list_byte bs)))).
Proof.
  split.
  - unfold outcome. rewrite setup_py_run. split.
    + destruct (imported env) as [st| |name|msg] eqn:Hi; cbn [snd];
        try discriminate.
      destruct (st_find_packages st (cwd env)) as [msg|pkgs] eqn:Hf;
        cbn [snd]; [discriminate|].
      destruct (read_bytes "README.md" (cwd env)) as [e|bs] eqn:Hb;
        cbn [snd]; [discriminate|].
      unfold text_of, decode_utf8.
      destruct (utf8_valid bs) eqn:Hv; cbn [option_map snd]; [|discriminate].
      destruct (st_setup st (cwd env) _) eqn:Hs; [discriminate|].
      intros _. exists st, pkgs, bs. repeat split; auto.
    + intros (st & pkgs & bs & -> & -> & -> & Hv & Hs).
      rewrite (valid_text_of bs Hv). cbn [snd]. rewrite Hs. reflexivity.
  - intros st pkgs bs msg Hst Hf Hb Hv Hs.
    unfold setup_call, outcome, trace.
    rewrite setup_py_run, Hst, Hf, Hb, (valid_text_of bs Hv).
    cbn [fst snd]. rewrite Hs. split; reflexivity.
Qed.

Lemma completion_witness :
  outcome (env_in full_tree) = inr tt
  /\ outcome {| import_system := installed refusing; cwd := full_tree |}
     = inl (SetuptoolsError "error: no commands supplied").
Proof.
  split.
  - apply (proj2 (proj1 (completion (env_in full_tree)))).
    exists Finder.reference, ["panda_math"; "panda_math.transform"], readme_a.
    repeat split; reflexivity.
  - exact (proj1 (proj2 (completion
                    {| import_system := installed refusing; cwd := full_tree |})
                    refusing ["panda_math"; "panda_math.transform"] readme_a
                    "error: no commands supplied"
                    eq_refl eq_refl eq_refl eq_refl eq_refl)).
Defined.

(** ** The order of the steps *)

(** X5. When the import succeeds, [find_packages()] is called once, on the
    working directory, right after the import and before [README.md] is
    opened, also when [README.md] is missing or cannot be decoded; what
    follows the [open] is nothing, the [read] alone, or the [read] and the
    call of [setup] with the packages found.  When [find_packages()]
    raises, nothing follows it. *)
Theorem scan_before_open (env : Env) (st : Setuptools) :
  imported env = Loaded st ->
  (forall pkgs, st_find_packages st (cwd env) = inr pkgs ->
     exists rest,
       trace env = import_event :: EFindPackages pkgs :: open_event :: rest
       /\ (rest = [] \/ rest = [read_event]
           \/ exists s, rest = [read_event; ESetup (setup_attrs pkgs s)]))
  /\ (forall msg, st_find_packages st (cwd env) = inl msg ->
        trace env = [import_event; EFindPackagesRaised msg]
        /\ outcome env = inl (SetuptoolsError msg)).
Proof.
  intros Hst. split.
  - intros pkgs Hf. unfold trace. rewrite setup_py_run, Hst, Hf.
    destruct (read_bytes "README.md" (cwd env)) as [e|bs].
    + eexists. split; [reflexivity | auto].
    + destruct (text_of bs) as [s|]; eexists; (split; [reflexivity|]); auto.
      right. right. exists s. reflexivity.
  - intros msg Hf. unfold outcome, trace. rewrite setup_py_run, Hst, Hf.
    split; reflexivity.
Qed.

Lemma scan_before_open_witness :
  imported (env_in supplied_tree) = Loaded Finder.reference
  /\ st_find_packages Finder.reference (cwd (env_in supplied_tree)) = inr []
  /\ exists rest,
       trace (env_in supplied_tree)
       = import_event :: EFindPackages [] :: open_event :: rest.
Proof.
  split; [reflexivity|]. split; [reflexivity|].
  destruct (proj1 (@scan_before_open (env_in supplied_tree) Finder.reference
                     eq_refl) [] eq_refl) as (rest & H & _).
  exists rest. exact H.
Defined.

(** ** The text that reaches [long_description] *)

Lemma universal_newlines_removes_cr (s : str) :
  has_cr (universal_newlines s) = false
  /\ forall c, has_cr (universal_newlines (String c s)) = false.
Proof.
  induction s as [|d s [IH1 IH2]].
  - split; [reflexivity|]. intros c. cbn [universal_newlines].
    destruct (Ascii.eqb c CR) eqn:Hc; cbn [has_cr]; [reflexivity|].
    rewrite Hc. reflexivity.
  - split; [apply IH2|]. intros c.
    change (universal_newlines (String c (String d s)))
      with (if Ascii.eqb c CR
            then if Ascii.eqb d LF then String LF (universal_newlines s)
                 else String LF (universal_newlines (String d s))
            else String c (universal_newlines (String d s))).
    destruct (Ascii.eqb c CR) eqn:Hc.
    + destruct (Ascii.eqb d LF); cbn [has_cr]; [rewrite IH1 | rewrite IH2];
        reflexivity.
    + cbn [has_cr]. rewrite Hc, IH2. reflexivity.
Qed.

(** X7. The [long_description] that [setup] receives never contains a
    carriage return: CR LF and lone CR line ends of [README.md] arrive as
    line feeds. *)
Theorem long_description_has_no_cr (env : Env) (kw : kwargs) (s : str) :
  setup_call env = Some kw ->
  get "long_description" kw = Some (VStr s) ->
  has_cr s = false.
Proof.
  intros Hc Hg.
  apply setup_call_inv in Hc as (st & pkgs & s' & _ & _ & Hr & ->).
  cbn in Hg. injection Hg as <-.
  apply read_text_inr in Hr as (bs & _ & Ht).
  unfold text_of, decode_utf8 in Ht.
  destruct (utf8_valid bs); [|discriminate].
  cbn [option_map] in Ht. injection Ht as <-.
  apply universal_newlines_removes_cr.
Qed.

Lemma long_description_has_no_cr_witness :
  setup_call (env_in (with_readme readme_crlf supplied_tree))
  = Some (setup_attrs [] (String "#" (String " " (String "a" (String LF
            (String "b" (String LF (String "c" EmptyString))))))))
  /\ has_cr (String "#" (String " " (String "a" (String LF
            (String "b" (String LF (String "c" EmptyString))))))) = false.
Proof.
  split; [reflexivity|].
  exact (long_description_has_no_cr
           (env_in (with_readme readme_crlf supplied_tree)) eq_refl eq_refl).
Defined.





Lemma between_allowed (lo hi : N) (b : byte) :
  between lo hi b = true ->
  (hi < 192 \/ (194 <= lo /\ hi < 245))%N ->
  negb (never_in_utf8 b) = true.
Proof.
  unfold never_in_utf8, between. intros H Hr.
  apply andb_true_iff in H as [H1 H2]. apply N.leb_le in H1, H2.
  apply negb_true_iff, orb_false_iff. split; apply andb_false_iff.
  - destruct Hr as [Hr|[Hr _]]; [left | right]; apply N.leb_gt; lia.
  - left. apply N.leb_gt. lia.
Qed.

(** Every byte of a well-formed sequence is a byte that UTF-8 uses. *)
Lemma valid_bytes_allowed (n : nat) :
  forall bs, length bs <= n -> utf8_valid bs = true ->
    forallb (fun b => negb (never_in_utf8 b)) bs = true.
Proof.
  induction n as [|n IH]; intros bs Hlen Hv.
  { destruct bs; [reflexivity | simpl in Hlen; lia]. }
  destruct bs as [|b0 r0]; [reflexivity|].
  cbn [utf8_valid] in Hv. cbn [length] in Hlen.
  destruct (between 0 127 b0) eqn:H1.
  { cbn [forallb]. rewrite (@between_allowed _ _ _ H1) by lia.
    apply IH; [lia | exact Hv]. }
  destruct r0 as [|b1 r1]; [discriminate|]. cbn [length] in Hlen.
  destruct (between 194 223 b0) eqn:H2.
  { apply andb_true_iff in Hv as [Hc1 Hv]. unfold continuation in Hc1.
    cbn [forallb].
    rewrite (@between_allowed _ _ _ H2), (@between_allowed _ _ _ Hc1) by lia.
    apply IH; [lia | exact Hv]. }
  destruct r1 as [|b2 r2]; [discriminate|]. cbn [length] in Hlen.
  destruct (between 224 239 b0) eqn:H3.
  { apply andb_true_iff in Hv as [Hv Hr].
    apply andb_true_iff in Hv as [Hc1 Hc2]. unfold continuation in Hc1, Hc2.
    cbn [forallb].
    rewrite (@between_allowed _ _ _ H3), (@between_allowed _ _ _ Hc2) by lia.
    assert (negb (never_in_utf8 b1) = true) as ->.
    { destruct (between 224 224 b0); [|destruct (between 237 237 b0)];
        apply (@between_allowed _ _ _ Hc1); lia. }
    apply IH; [lia | exact Hr]. }
  destruct r2 as [|b3 r3]; [discriminate|]. cbn [length] in Hlen.
  destruct (between 240 244 b0) eqn:H4; [|discriminate].
  apply andb_true_iff in Hv as [Hv Hr].
  apply andb_true_iff in Hv as [Hv Hc3].
  apply andb_true_iff in Hv as [Hc1 Hc2]. unfold continuation in Hc1, Hc2, Hc3.
  cbn [forallb].
  rewrite (@between_allowed _ _ _ H4), (@between_allowed _ _ _ Hc2), (@between_allowed _ _ _ Hc3)
    by lia.
  assert (negb (never_in_utf8 b1) = true) as ->.
  { destruct (between 240 240 b0); [|destruct (between 244 244 b0)];
      apply (@between_allowed _ _ _ Hc1); lia. }
  apply IH; [lia | exact Hr].
Qed.

(** X9. A [README.md] that can be opened and holds, anywhere, one of the
    bytes C0, C1 or F5 to FF is refused: when the import succeeds and
    [find_packages()] returns, the evaluation ends with
    [UnicodeDecodeError] and [setup] is not called.  A file saved as UTF-16
    starts with such a byte. *)
Theorem stray_byte_refused (env : Env) (st : Setuptools) (pkgs : list str)
        (bs : list byte) (b : byte) :
  imported env = Loaded st ->
  st_find_packages st (cwd env) = inr pkgs ->
  read_bytes "README.md" (cwd env) = inr bs ->
  In b bs -> never_in_utf8 b = true ->
  outcome env = inl (UnicodeDecodeError "utf-8")
  /\ setup_call env = None.
Proof.
  intros Hst Hf Hl Hin Hb.
  assert (utf8_valid bs = false) as Hv.
  { destruct (utf8_valid bs) eqn:Hv; [|reflexivity].
    pose proof (@valid_bytes_allowed (length bs) bs (le_n _) Hv) as Hall.
    rewrite forallb_forall in Hall. specialize (Hall b Hin).
    rewrite Hb in Hall. discriminate. }
  unfold setup_call, outcome, trace. rewrite setup_py_run, Hst, Hf, Hl.
  unfold text_of, decode_utf8. rewrite Hv.
  split; reflexivity.
Qed.

Lemma stray_byte_refused_witness :
  imported (env_in (with_readme readme_utf16 full_tree))
  = Loaded Finder.reference
  /\ In xff readme_utf16
  /\ never_in_utf8 xff = true
  /\ outcome (env_in (with_readme readme_utf16 full_tree))
     = inl (UnicodeDecodeError "utf-8").
Proof.
  assert (In xff readme_utf16) as Hin by (left; reflexivity).
  split; [reflexivity|]. split; [exact Hin|]. split; [reflexivity|].
  exact (proj1 (@stray_byte_refused
                  (env_in (with_readme readme_utf16 full_tree))
                  Finder.reference ["panda_math"; "panda_math.transform"]
                  readme_utf16 xff
                  eq_refl eq_refl eq_refl Hin eq_refl)).
Defined.

(** ** The call and the text of the file *)

(** X10. Every argument of the call other than [packages] and
    [long_description] is, in every evaluation, the literal written for its
    keyword in the file, and a keyword that is not written is not passed.
    The two remaining arguments are written as the calls
    [find_packages()] and [open("README.md", encoding="utf-8").read()].
    In particular [author], [author_email], [url] and
    [long_description_content_type] are the strings of lines 8, 9, 13 and
    12. *)
Theorem arguments_as_written (env : Env) (kw : kwargs) :
  setup_call env = Some kw ->
  (forall k, k <> "packages" -> k <> "long_description" ->
             get k kw = Source.written k)
  /\ Source.argument "packages" false 0 Source.call_tokens
     = [ Source.NAME "find_packages"; Source.OP "("; Source.OP ")" ]
  /\ Source.argument "long_description" false 0 Source.call_tokens
     = [ Source.NAME "open"; Source.OP "("; Source.STRING "README.md";
         Source.OP ","; Source.NAME "encoding"; Source.OP "=";
         Source.STRING "utf-8"; Source.OP ")"; Source.OP ".";
         Source.NAME "read"; Source.OP "("; Source.OP ")" ]
  /\ get "author" kw = Some (VStr "Colin Politi")
  /\ get "author_email" kw = Some (VStr "urboycolinthepanda@gmail.com")
  /\ get "url" kw = Some (VStr "https://github.com/ColinThePanda/panda_math")
  /\ get "long_description_content_type" kw = Some (VStr "text/markdown").
Proof.
  intros H. called H.
  split; [|repeat split; reflexivity].
  intros k Hp Hl. unfold Source.written.
  let t := eval vm_compute in Source.call_tokens in
  change Source.call_tokens with t.
  cbn [Source.argument Nat.eqb Nat.pred andb orb Ascii.eqb Bool.eqb
       Source.opens Source.closes].
  unfold setup_attrs. cbn [get].
  repeat match goal with
         | |- context [String.eqb ?a k] =>
           destruct (String.eqb_spec a k) as [<-|?];
           [first [reflexivity | congruence]|]
         end.
  repeat match goal with
         | |- context [String.eqb k ?a] =>
           destruct (String.eqb_spec k a) as [->|?];
           [congruence|]
         end.
  reflexivity.
Qed.

Lemma arguments_as_written_witness :
  setup_call (env_in full_tree)
  = Some (setup_attrs ["panda_math"; "panda_math.transform"] "# panda_math")
  /\ get "url" (setup_attrs ["panda_math"; "panda_math.transform"] "# panda_math")
     = Source.written "url"
  /\ get "license"
       (setup_attrs ["panda_math"; "panda_math.transform"] "# panda_math")
     = Source.written "license".
Proof.
  split; [reflexivity|].
  destruct (arguments_as_written (env_in full_tree) eq_refl) as (H & _).
  split; apply H; discriminate.
Defined.
